(** * Smart space heater controller: a shallow embedding of [heater_control.py]

    The development follows the Python module top to bottom:
    - [HeaterConfig], the shared configuration object [config];
    - a small state / exception / trace monad [M] for the code that reads and
      writes [config], prints, calls the smart plug and may raise;
    - [C2F], [read_temperature], [control_heater], the body of the
      [temperature_monitor] loop, and the four Flask handlers
      [get_status], [set_target], [set_mode], [set_heater];
    - the theorems about them.

    Temperatures are Python floats, i.e. IEEE 754 binary64 numbers: they are
    modelled by Rocq's primitive [float], whose operations are the same
    binary64 operations, so that [<], [<=], [+], [-], [*] and [/] below are
    the comparisons and roundings Python performs.

    Every block of the program that touches [config] runs under
    [config.lock]; the embedding therefore treats one loop iteration and one
    handler call as one atomic step on [HeaterConfig]. *)

From Stdlib Require Import Bool List String ZArith Floats Lia.
Import ListNotations.

Set Warnings "-inexact-float,-register-all".

Local Open Scope string_scope.
Local Open Scope list_scope.

(** ** Python's [round(x, 1)] on floats

    CPython rounds the exact binary value of [x] to one decimal place, ties
    to even, and returns the double nearest to that decimal ([float.__round__]
    with [ndigits]); NaN, the infinities and the zeros round to themselves. *)

Definition round_half_even_div (num den : Z) : Z :=
  let q := (num / den)%Z in
  let r := (num mod den)%Z in
  match (2 * r ?= den)%Z with
  | Lt => q
  | Gt => (q + 1)%Z
  | Eq => if Z.even q then q else (q + 1)%Z
  end.

Definition round1 (x : float) : float :=
  match Prim2SF x with
  | S754_finite s m e =>
      if (0 <=? e)%Z then x
      else
        match round_half_even_div (10 * Zpos m) (2 ^ (- e)) with
        | Zpos t =>
            SF2Prim (SFdiv prec emax (S754_finite s t 0) (S754_finite false 10 0))
        | _ => if s then neg_zero else zero
        end
  | _ => x
  end.

Arguments round1 : simpl never.

(** ** The configuration object *)

(** One entry of [config.temp_history]: the dict [{'time': ..., 'temp': ...}]. *)
Record sample := { time : string; temp : float }.

(** [class HeaterConfig]; the [lock] field is the atomicity of the steps. *)
Record HeaterConfig := {
  current_temp : float;
  target_temp : float;
  heater_on : bool;
  auto_mode : bool;
  temp_history : list sample
}.

(** [HeaterConfig.__init__], the value of the global [config] at start-up. *)
Definition HeaterConfig_init : HeaterConfig :=
  {| current_temp := 64.0%float;
     target_temp := 66.0%float;
     heater_on := false;
     auto_mode := true;
     temp_history := [] |}.

Definition with_current_temp (t : float) (c : HeaterConfig) : HeaterConfig :=
  {| current_temp := t; target_temp := target_temp c; heater_on := heater_on c;
     auto_mode := auto_mode c; temp_history := temp_history c |}.

Definition with_target_temp (t : float) (c : HeaterConfig) : HeaterConfig :=
  {| current_temp := current_temp c; target_temp := t; heater_on := heater_on c;
     auto_mode := auto_mode c; temp_history := temp_history c |}.

Definition with_heater_on (b : bool) (c : HeaterConfig) : HeaterConfig :=
  {| current_temp := current_temp c; target_temp := target_temp c; heater_on := b;
     auto_mode := auto_mode c; temp_history := temp_history c |}.

Definition with_auto_mode (b : bool) (c : HeaterConfig) : HeaterConfig :=
  {| current_temp := current_temp c; target_temp := target_temp c;
     heater_on := heater_on c; auto_mode := b; temp_history := temp_history c |}.

Definition with_temp_history (h : list sample) (c : HeaterConfig) : HeaterConfig :=
  {| current_temp := current_temp c; target_temp := target_temp c;
     heater_on := heater_on c; auto_mode := auto_mode c; temp_history := h |}.

(** ** Effects: state, exceptions and the trace of observable calls *)

(** What the program does to the outside world, in order. *)
Inductive event :=
| Print (msg : string)      (* print(msg) *)
| PlugTurnOn                (* SMART_PLUG.turn_on() was called *)
| PlugTurnOff               (* SMART_PLUG.turn_off() was called *)
| Sleep (seconds : nat).    (* time.sleep(seconds) *)

(** A call either returns a value or raises an [Exception], kept as its
    message [str(e)]. *)
Inductive outcome (A : Type) :=
| Returns (a : A)
| Raises (e : string).
Arguments Returns {A} a.
Arguments Raises {A} e.

Definition M (A : Type) : Type :=
  HeaterConfig -> outcome A * HeaterConfig * list event.

Definition ret {A} (a : A) : M A := fun c => (Returns a, c, []).

Definition bind {A B} (m : M A) (k : A -> M B) : M B :=
  fun c =>
    match m c with
    | (Returns a, c1, tr1) =>
        match k a c1 with
        | (o, c2, tr2) => (o, c2, tr1 ++ tr2)
        end
    | (Raises e, c1, tr1) => (Raises e, c1, tr1)
    end.

Notation "x <- m ;; k" := (bind m (fun x => k))
  (at level 61, m at next level, right associativity).
Notation "m ;; k" := (bind m (fun _ => k))
  (at level 61, right associativity).

(** [try: body  except Exception as e: handler(e)]. *)
Definition try_except {A} (body : M A) (handler : string -> M A) : M A :=
  fun c =>
    match body c with
    | (Returns a, c1, tr1) => (Returns a, c1, tr1)
    | (Raises e, c1, tr1) =>
        match handler e c1 with
        | (o, c2, tr2) => (o, c2, tr1 ++ tr2)
        end
    end.

Definition get {A} (field : HeaterConfig -> A) : M A :=
  fun c => (Returns (field c), c, []).

Definition modify (f : HeaterConfig -> HeaterConfig) : M unit :=
  fun c => (Returns tt, f c, []).

Definition emit (e : event) : M unit := fun c => (Returns tt, c, [e]).

(** The result of a call into a driver, decided by the hardware. *)
Definition call {A} (o : outcome A) : M A := fun c => (o, c, []).

Definition print (msg : string) : M unit := emit (Print msg).
Definition sleep (seconds : nat) : M unit := emit (Sleep seconds).

(** Projections of a finished run. *)
Definition result {A} (r : outcome A * HeaterConfig * list event) : outcome A :=
  fst (fst r).
Definition final {A} (r : outcome A * HeaterConfig * list event) : HeaterConfig :=
  snd (fst r).
Definition trace {A} (r : outcome A * HeaterConfig * list event) : list event :=
  snd r.

(** The commands sent to the smart plug during a run ([true] is on). *)
Fixpoint plug_commands (tr : list event) : list bool :=
  match tr with
  | [] => []
  | PlugTurnOn :: tr' => true :: plug_commands tr'
  | PlugTurnOff :: tr' => false :: plug_commands tr'
  | _ :: tr' => plug_commands tr'
  end.

(** ** Sensor and smart plug *)

Definition C2F (t : float) : float := (t * 9 / 5 + 32)%float.

(** [read_temperature()]: [dht] is what [TEMP_SENSOR.temperature] does on
    this call: it raises (the driver's [RuntimeError]), returns [None] (no
    reading yet), on which [None * 9] raises a [TypeError], or returns the
    temperature in Celsius. *)
Definition read_temperature (dht : outcome (option float)) : outcome (option float) :=
  match dht with
  | Raises e => Raises e
  | Returns None =>
      Raises "unsupported operand type(s) for *: 'NoneType' and 'int'"
  | Returns (Some t) => Returns (Some (C2F t))
  end.

(** [control_heater(turn_on)]: [plug] is what the call to
    [SMART_PLUG.turn_on()] / [turn_off()] does (its return value is dropped
    by the program). *)
Definition control_heater (turn_on : bool) (plug : outcome unit) : M unit :=
  print ("Heater turned " ++ (if turn_on then "ON" else "OFF")) ;;
  modify (with_heater_on turn_on) ;;
  if turn_on
  then emit PlugTurnOn ;; call plug
  else emit PlugTurnOff ;; call plug.

(** ** The monitoring loop *)

Definition history_append (s : sample) : M unit :=
  modify (fun c => with_temp_history (temp_history c ++ [s]) c).

(** [config.temp_history.pop(0)] on a non-empty list (the caller has just
    checked that its length exceeds 100). *)
Definition history_pop0 : M unit :=
  modify (fun c => with_temp_history (tl (temp_history c)) c).

(** The body of [while True] for one iteration. [read] is the result of the
    call [read_temperature()], [now] is
    [datetime.now().strftime('%H:%M:%S')], and [plug] is what the smart plug
    does if it is called in this iteration. *)
Definition monitor_body (read : outcome (option float)) (now : string)
    (plug : outcome unit) : M unit :=
  try_except
    (temp <- call read ;;
     match temp with
     | Some temp =>
         modify (with_current_temp temp) ;;
         history_append {| time := now; temp := round1 temp |} ;;
         n <- get (fun c => List.length (temp_history c)) ;;
         (if (100 <? n)%nat then history_pop0 else ret tt) ;;
         auto <- get auto_mode ;;
         if auto then
           target <- get target_temp ;;
           on <- get heater_on ;;
           if (temp <? target - 0.5)%float && negb on then
             control_heater true plug
           else if (target + 0.5 <? temp)%float && on then
             control_heater false plug
           else ret tt
         else ret tt
     | None => ret tt
     end)
    (fun e => print ("Error in temperature monitor: " ++ e)) ;;
  sleep 5.

(** What the environment supplies to one iteration. *)
Record cycle_env := {
  env_dht : outcome (option float);
  env_now : string;
  env_plug : outcome unit
}.

Definition monitor_cycle (env : cycle_env) : M unit :=
  monitor_body (read_temperature (env_dht env)) (env_now env) (env_plug env).

(** [temperature_monitor()] run for as many iterations as [envs] supplies:
    the first [length envs] iterations of the endless loop. An iteration
    that raised would end the loop, as in Python. *)
Fixpoint temperature_monitor (envs : list cycle_env) : M unit :=
  match envs with
  | [] => ret tt
  | env :: rest => monitor_cycle env ;; temperature_monitor rest
  end.

(** ** The web API *)

(** JSON values as [jsonify] builds them. *)
Inductive json :=
| JNum (x : float)
| JBool (b : bool)
| JStr (s : string)
| JArr (items : list json)
| JObj (fields : list (string * json)).

(** A Flask response: status code and JSON body. *)
Record response := { status : nat; body : json }.

(** [jsonify({...})], with Flask's default status 200. *)
Definition jsonify (fields : list (string * json)) : response :=
  {| status := 200; body := JObj fields |}.

(** [return resp, code]. *)
Definition with_status (code : nat) (r : response) : response :=
  {| status := code; body := body r |}.

Fixpoint assoc (key : string) (fields : list (string * json)) : option json :=
  match fields with
  | [] => None
  | (k, v) :: rest => if String.eqb key k then Some v else assoc key rest
  end.

(** The value of a member of the response's JSON object. *)
Definition field (key : string) (r : response) : option json :=
  match body r with
  | JObj fields => assoc key fields
  | _ => None
  end.

Definition sample_json (s : sample) : json :=
  JObj [("time", JStr (time s)); ("temp", JNum (temp s))].

(** Python's [l[-n:]] for [n > 0]: the last [n] items, or all of [l]. *)
Definition last_n {A} (n : nat) (l : list A) : list A :=
  skipn (List.length l - n) l.

(** A value of a member of the request body as [request.json] decodes it:
    [None] (JSON null), a [bool], an [int] of any size, a [float] (with the
    [Infinity] and [NaN] literals the decoder accepts), a [str], a [list] or
    a [dict]. For a string, what Python's string-to-float parser makes of it
    is part of the value ([as_float]): the parser is the interpreter's, and
    the program only sees its result. The items of lists and dicts play no
    part in what the handlers do. *)
Inductive value :=
| VNone
| VBool (b : bool)
| VInt (n : Z)
| VFloat (x : float)
| VStr (s : string) (as_float : outcome float)
| VList
| VDict.

(** [float(n)] for a Python [int]: the nearest double, ties to even, or an
    [OverflowError] when that is beyond the largest double. *)
Definition float_of_int (n : Z) : outcome float :=
  match binary_normalize prec emax n 0 false with
  | S754_infinity _ => Raises "int too large to convert to float"
  | sf => Returns (SF2Prim sf)
  end.

(** Python's [float(v)]. *)
Definition py_float (v : value) : outcome float :=
  match v with
  | VFloat x => Returns x
  | VInt n => float_of_int n
  | VBool b => Returns (if b then 1 else 0)%float
  | VStr _ as_float => as_float
  | VNone =>
      Raises "float() argument must be a string or a real number, not 'NoneType'"
  | VList =>
      Raises "float() argument must be a string or a real number, not 'list'"
  | VDict =>
      Raises "float() argument must be a string or a real number, not 'dict'"
  end.

(** The request bodies, [request.json]: a JSON object in which the member
    the handler reads is either missing ([None]) or present; for [set_mode]
    and [set_heater] a present member is a JSON boolean. *)
Record set_target_json := { target : option value }.
Record set_mode_json := { auto : option bool }.
Record set_heater_json := { on : option bool }.

(** [data.get(key, default)], on the looked-up member. *)
Definition dict_get {A} (member : option A) (default : A) : A :=
  match member with
  | Some v => v
  | None => default
  end.

(** [GET /api/status]. *)
Definition get_status : M response :=
  c <- get (fun c => c) ;;
  ret (jsonify
         [("current_temp", JNum (round1 (current_temp c)));
          ("target_temp", JNum (round1 (target_temp c)));
          ("heater_on", JBool (heater_on c));
          ("auto_mode", JBool (auto_mode c));
          ("temp_history", JArr (map sample_json (last_n 20 (temp_history c))))]).

(** [POST /api/set_target]. An exception of [float(...)] leaves the handler
    (Flask answers 500). *)
Definition set_target (data : set_target_json) : M response :=
  target <- call (py_float (dict_get (target data) (VInt 22))) ;;
  if (50 <=? target)%float && (target <=? 85)%float then
    modify (with_target_temp target) ;;
    ret (jsonify [("success", JBool true); ("target_temp", JNum target)])
  else
    ret (with_status 400
           (jsonify [("success", JBool false);
                     ("error", JStr "Temperature must be between 50-85°F")])).

(** [POST /api/set_mode]. *)
Definition set_mode (data : set_mode_json) : M response :=
  let auto := dict_get (auto data) true in
  modify (with_auto_mode auto) ;;
  ret (jsonify [("success", JBool true); ("auto_mode", JBool auto)]).

(** [POST /api/set_heater]; [plug] is what the smart plug does if called. *)
Definition set_heater (data : set_heater_json) (plug : outcome unit) : M response :=
  let turn_on := dict_get (on data) false in
  auto <- get auto_mode ;;
  if negb auto then
    control_heater turn_on plug ;;
    ret (jsonify [("success", JBool true); ("heater_on", JBool turn_on)])
  else
    ret (with_status 400
           (jsonify [("success", JBool false);
                     ("error", JStr "Cannot manually control in auto mode")])).

(** A handler call succeeded when it returned a 200 response whose
    ["success"] member is [True]. *)
Definition succeeded (o : outcome response) : Prop :=
  match o with
  | Returns r => status r = 200 /\ field "success" r = Some (JBool true)
  | Raises _ => False
  end.

(** ** The running system

    The monitor thread and the request handlers interleave; each of their
    locked blocks is one step. *)
Inductive action :=
| Monitor (env : cycle_env)
| GetStatus
| SetTarget (data : set_target_json)
| SetMode (data : set_mode_json)
| SetHeater (data : set_heater_json) (plug : outcome unit).

Definition step (a : action) (c : HeaterConfig) : HeaterConfig :=
  match a with
  | Monitor env => final (monitor_cycle env c)
  | GetStatus => final (get_status c)
  | SetTarget data => final (set_target data c)
  | SetMode data => final (set_mode data c)
  | SetHeater data plug => final (set_heater data plug c)
  end.

Definition run (acts : list action) (c : HeaterConfig) : HeaterConfig :=
  fold_left (fun c a => step a c) acts c.

(** The states the program can be in: [config] as constructed, then any
    number of steps. *)
Inductive reachable : HeaterConfig -> Prop :=
| reachable_init : reachable HeaterConfig_init
| reachable_step a c : reachable c -> reachable (step a c).

(** The reading a loop iteration obtains, if [read_temperature()] returned
    one. *)
Definition reading (env : cycle_env) : option float :=
  match read_temperature (env_dht env) with
  | Returns (Some t) => Some t
  | _ => None
  end.

(** The history entry a loop iteration stores for reading [t]. *)
Definition entry (env : cycle_env) (t : float) : sample :=
  {| time := env_now env; temp := round1 t |}.

(** The entries stored by the iterations of [envs] that obtained a reading,
    oldest first. *)
Fixpoint entries (envs : list cycle_env) : list sample :=
  match envs with
  | [] => []
  | env :: rest =>
      match reading env with
      | Some t => entry env t :: entries rest
      | None => entries rest
      end
  end.

(** [stores env s]: the iteration [env] obtains a reading and [s] is the
    entry it appends: the time of the iteration and the reading rounded to
    one decimal. *)
Definition stores (env : cycle_env) (s : sample) : Prop :=
  exists t, reading env = Some t /\ s = {| time := env_now env; temp := round1 t |}.

(** The loop iterations among the steps [acts], in order. *)
Fixpoint monitor_envs (acts : list action) : list cycle_env :=
  match acts with
  | [] => []
  | Monitor env :: rest => env :: monitor_envs rest
  | _ :: rest => monitor_envs rest
  end.

(** ** Closed forms of the loop body

    [monitor_body_reading] below proves that an iteration with a reading is
    [store_reading] followed by the command [demand] asks for; these three
    definitions only name the pieces of that equation. *)

(** [config] after lines 101-109 of the loop: the reading and its history
    entry stored, the history cut back to 100 entries. *)
Definition store_reading (now : string) (t : float) (c : HeaterConfig) : HeaterConfig :=
  let h := temp_history c ++ [{| time := now; temp := round1 t |}] in
  with_temp_history (if (100 <? List.length h)%nat then tl h else h)
    (with_current_temp t c).

(** The argument of the [control_heater] call made for reading [t], if one
    is made. *)
Definition demand (t : float) (c : HeaterConfig) : option bool :=
  if auto_mode c then
    if (t <? target_temp c - 0.5)%float && negb (heater_on c) then Some true
    else if (target_temp c + 0.5 <? t)%float && heater_on c then Some false
    else None
  else None.

(** What the [except] clause prints when the plug call raised. *)
Definition caught (plug : outcome unit) : list event :=
  match plug with
  | Returns _ => []
  | Raises e => [Print ("Error in temperature monitor: " ++ e)]
  end.

(** ** Scenarios *)

(** The sensor reads 18 C (64.4 F) and the plug answers. *)
Definition cool_room : cycle_env :=
  {| env_dht := Returns (Some 18%float); env_now := "07:30:00";
     env_plug := Returns tt |}.

(** The DHT driver gives up on a read. *)
Definition sensor_timeout : cycle_env :=
  {| env_dht := Raises "A full buffer was not returned. Try again.";
     env_now := "07:30:05"; env_plug := Returns tt |}.

(** The initial configuration switched to manual mode. *)
Definition manual : HeaterConfig := with_auto_mode false HeaterConfig_init.

(** A run of 150 iterations with readings rising from 15.0 C by 0.1 C. *)
Definition celsius (n : nat) : float :=
  (of_uint63 (Uint63.of_Z (Z.of_nat n)) / 10 + 15)%float.

Definition warm_up : list cycle_env :=
  map (fun n => {| env_dht := Returns (Some (celsius n)); env_now := "12:00:00";
                   env_plug := Returns tt |})
      (seq 0 150).

(** ** Observations on traces *)

(** The arguments of the [time.sleep] calls of a run, in order. *)
Fixpoint sleeps (tr : list event) : list nat :=
  match tr with
  | [] => []
  | Sleep n :: tr' => n :: sleeps tr'
  | _ :: tr' => sleeps tr'
  end.

(** [alternates prev cmds]: each command of [cmds] is the opposite of the
    one before it, the first one the opposite of [prev]. *)
Fixpoint alternates (prev : bool) (cmds : list bool) : bool :=
  match cmds with
  | [] => true
  | b :: rest => Bool.eqb b (negb prev) && alternates b rest
  end.

(** The target values of the [set_target] requests [vs] as steps. *)
Definition target_requests (vs : list float) : list action :=
  map (fun v => SetTarget {| target := Some (VFloat v) |}) vs.


(** The trace of one step of the system, and of a sequence of steps. *)
Definition step_trace (a : action) (c : HeaterConfig) : list event :=
  match a with
  | Monitor env => trace (monitor_cycle env c)
  | GetStatus => trace (get_status c)
  | SetTarget data => trace (set_target data c)
  | SetMode data => trace (set_mode data c)
  | SetHeater data plug => trace (set_heater data plug c)
  end.

Fixpoint run_trace (acts : list action) (c : HeaterConfig) : list event :=
  match acts with
  | [] => []
  | a :: rest => step_trace a c ++ run_trace rest (step a c)
  end.

(** ** Start-up: the smart plug's credentials

    [DEVICE_ID, DEVICE_IP, LOCAL_KEY = open("./plug_creds.txt").read().split()] *)

(** A Python [str]: its Unicode code points. *)
Definition text : Type := list N.

(** The code points of an ASCII literal. *)
Definition codes (s : string) : text := map Ascii.N_of_ascii (list_ascii_of_string s).

(** [ch.isspace()] for a single character: the code points on which
    [str.split()] splits. *)
Definition isspace (ch : N) : bool :=
  ((9 <=? ch) && (ch <=? 13)
   || (28 <=? ch) && (ch <=? 32)
   || (ch =? 133) || (ch =? 160) || (ch =? 5760)
   || (8192 <=? ch) && (ch <=? 8202)
   || (ch =? 8232) || (ch =? 8233) || (ch =? 8239) || (ch =? 8287)
   || (ch =? 12288))%N.

(** [s.split()]: the maximal runs of non-whitespace characters of [s], in
    order. *)
Fixpoint split (s : text) : list text :=
  match s with
  | [] => []
  | ch :: rest =>
      if isspace ch then split rest
      else
        match rest with
        | [] => [[ch]]
        | ch' :: _ =>
            if isspace ch' then [ch] :: split rest
            else
              match split rest with
              | tok :: toks => (ch :: tok) :: toks
              | [] => [[ch]]
              end
        end
  end.

(** The start-up statement: [file] is what [open(...).read()] does (it
    raises when the file is missing or unreadable); unpacking into three
    names raises a [ValueError] unless [split] gave exactly three items. *)
Definition load_credentials (file : outcome text) : outcome (text * text * text) :=
  match file with
  | Raises e => Raises e
  | Returns s =>
      match split s with
      | [] => Raises "not enough values to unpack (expected 3, got 0)"
      | [_] => Raises "not enough values to unpack (expected 3, got 1)"
      | [_; _] => Raises "not enough values to unpack (expected 3, got 2)"
      | [device_id; device_ip; local_key] =>
          Returns (device_id, device_ip, local_key)
      | _ => Raises "too many values to unpack (expected 3)"
      end
  end.

(** A credential as [split] can produce it: non-empty, no whitespace. *)
Definition token (tok : text) : Prop :=
  tok <> [] /\ forallb (fun ch => negb (isspace ch)) tok = true.

(** Whitespace only. *)
Definition blank (ws : text) : Prop := forallb isspace ws = true.

(** The status code of the response a handler returned, if it returned. *)
Definition status_of (r : outcome response * HeaterConfig * list event) : option nat :=
  match result r with
  | Returns resp => Some (status resp)
  | Raises _ => None
  end.

(** * Proofs *)

Ltac unfold_monad :=
  cbv beta iota zeta delta
    [monitor_cycle monitor_body get_status set_target set_mode set_heater
     control_heater history_append history_pop0 try_except bind call modify
     get ret print sleep emit result final trace fst snd
     with_current_temp with_target_temp with_heater_on with_auto_mode
     with_temp_history current_temp target_temp heater_on auto_mode
     temp_history dict_get].

(** [round1] on a few Python values: [round(65.45, 1) == 65.5],
    [round(0.25, 1) == 0.2] (a tie, to even), [round(2.675, 1) == 2.7],
    [round(-0.04, 1) == -0.0]. *)
Example round1_values :
  round1 64 = 64%float
  /\ round1 65.45 = 65.5%float
  /\ round1 0.25 = 0.2%float
  /\ round1 2.675 = 2.7%float
  /\ round1 (-0.04) = neg_zero
  /\ round1 nan = nan
  /\ round1 infinity = infinity.
Proof. repeat split; vm_compute; reflexivity. Qed.

(** ** Lists: the last [n] items *)

Section LastN.
Context {A : Type}.
Implicit Types (l h : list A) (n : nat).

Lemma last_n_length n l : List.length (last_n n l) = min n (List.length l).
Proof. unfold last_n. rewrite length_skipn. lia. Qed.

Lemma last_n_suffix n l : exists older, l = older ++ last_n n l.
Proof.
  exists (firstn (List.length l - n) l). unfold last_n.
  symmetry. apply firstn_skipn.
Qed.

Lemma last_n_short n l : List.length l <= n -> last_n n l = l.
Proof.
  intros H. unfold last_n.
  replace (List.length l - n) with 0 by lia. reflexivity.
Qed.

Lemma last_n_app_long n h l :
  n <= List.length l -> last_n n (h ++ l) = last_n n l.
Proof.
  intros H. unfold last_n. rewrite skipn_app, length_app.
  rewrite skipn_all2 by lia.
  replace (List.length h + List.length l - n - List.length h)
    with (List.length l - n) by lia.
  reflexivity.
Qed.

Lemma last_n_idem_app n h l :
  last_n n (last_n n h ++ l) = last_n n (h ++ l).
Proof.
  unfold last_n. set (k := List.length h - n).
  rewrite !length_app, length_skipn. fold k.
  assert (E : h ++ l = firstn k h ++ (skipn k h ++ l))
    by (rewrite app_assoc, firstn_skipn; reflexivity).
  rewrite E. rewrite (skipn_app _ (firstn k h)).
  assert (Hk : List.length (firstn k h) = k) by (rewrite length_firstn; lia).
  rewrite (skipn_all2 (firstn k h)) by lia.
  rewrite Hk. cbn [app]. f_equal. lia.
Qed.

(** Appending one item to a list of at most [n] items and popping the
    front when the length exceeds [n] keeps the last [n] items. *)
Lemma append_pop_last_n n h (s : A) :
  List.length h <= n ->
  (if (n <? List.length (h ++ [s]))%nat then tl (h ++ [s]) else h ++ [s])
  = last_n n (h ++ [s]).
Proof.
  intros H. unfold last_n. rewrite length_app. cbn [List.length].
  destruct (Nat.ltb_spec n (List.length h + 1)).
  - replace (List.length h + 1 - n) with 1 by lia.
    destruct (h ++ [s]); reflexivity.
  - replace (List.length h + 1 - n) with 0 by lia. reflexivity.
Qed.
End LastN.

(** ** One loop iteration *)

Lemma control_heater_eq b plug c :
  control_heater b plug c =
  (plug, with_heater_on b c,
   [Print ("Heater turned " ++ (if b then "ON" else "OFF"));
    if b then PlugTurnOn else PlugTurnOff]).
Proof. destruct b; reflexivity. Qed.

Lemma monitor_body_reading now t plug c :
  monitor_body (Returns (Some t)) now plug c =
  let c' := store_reading now t c in
  match demand t c' with
  | Some b =>
      (Returns tt, with_heater_on b c',
       [Print ("Heater turned " ++ (if b then "ON" else "OFF"));
        if b then PlugTurnOn else PlugTurnOff] ++ caught plug ++ [Sleep 5])
  | None => (Returns tt, c', [Sleep 5])
  end.
Proof.
  destruct c as [ct tg h am hist].
  unfold store_reading, demand, caught. unfold_monad.
  destruct (100 <? _)%nat; unfold_monad;
    (destruct am; [| reflexivity]);
    (destruct ((t <? tg - 0.5)%float && negb h);
     [ destruct plug as [[]|e]; reflexivity | ]);
    (destruct ((tg + 0.5 <? t)%float && h);
     [ destruct plug as [[]|e]; reflexivity | reflexivity ]).
Qed.

Lemma monitor_body_raises e now plug c :
  monitor_body (Raises e) now plug c =
  (Returns tt, c, [Print ("Error in temperature monitor: " ++ e); Sleep 5]).
Proof. reflexivity. Qed.

Lemma monitor_body_none now plug c :
  monitor_body (Returns None) now plug c = (Returns tt, c, [Sleep 5]).
Proof. reflexivity. Qed.

Lemma demand_store_reading now t c : demand t (store_reading now t c) = demand t c.
Proof. reflexivity. Qed.

Lemma monitor_cycle_reading env t c :
  reading env = Some t ->
  monitor_cycle env c = monitor_body (Returns (Some t)) (env_now env) (env_plug env) c.
Proof.
  unfold reading, monitor_cycle.
  destruct (read_temperature (env_dht env)) as [[t'|]|e]; intros H;
    inversion H; reflexivity.
Qed.

(** [read_temperature] never returns [None]: a failed read always reaches
    the [except] clause. *)
Lemma monitor_cycle_failed env c :
  reading env = None ->
  exists e, monitor_cycle env c =
            (Returns tt, c, [Print ("Error in temperature monitor: " ++ e); Sleep 5]).
Proof.
  unfold reading, monitor_cycle.
  destruct (env_dht env) as [[t|]|e]; cbn [read_temperature]; intros H;
    try discriminate; eexists; apply monitor_body_raises.
Qed.

(** An iteration never raises: [except Exception] catches whatever the
    sensor or the plug raised, so the loop goes on. *)
Lemma monitor_body_returns read now plug c :
  result (monitor_body read now plug c) = Returns tt.
Proof.
  destruct read as [[t|]|e]; [| reflexivity | reflexivity].
  rewrite monitor_body_reading. cbv zeta.
  destruct (demand t (store_reading now t c)); reflexivity.
Qed.

Lemma monitor_cycle_returns env c : result (monitor_cycle env c) = Returns tt.
Proof. apply monitor_body_returns. Qed.

(** The plug command of an iteration with a reading, and [heater_on] after
    it, whatever the plug call does. *)
Lemma monitor_cycle_demand env t c :
  reading env = Some t ->
  heater_on (final (monitor_cycle env c))
  = match demand t c with Some b => b | None => heater_on c end
  /\ plug_commands (trace (monitor_cycle env c))
     = match demand t c with Some b => [b] | None => [] end.
Proof.
  intros R. rewrite (monitor_cycle_reading _ _ _ R), monitor_body_reading.
  cbv zeta. rewrite demand_store_reading.
  destruct (demand t c) as [[|]|]; destruct (env_plug env) as [[]|e];
    split; reflexivity.
Qed.

Lemma final_monitor_reading env t c :
  reading env = Some t ->
  final (monitor_cycle env c) =
  match demand t c with
  | Some b => with_heater_on b (store_reading (env_now env) t c)
  | None => store_reading (env_now env) t c
  end.
Proof.
  intros H. rewrite (monitor_cycle_reading _ _ _ H), monitor_body_reading.
  cbv zeta. rewrite demand_store_reading. destruct (demand t c); reflexivity.
Qed.

Lemma final_monitor_failed env c : reading env = None -> final (monitor_cycle env c) = c.
Proof. intros H. destruct (monitor_cycle_failed env c H) as [e ->]. reflexivity. Qed.

Lemma history_monitor_reading env t c :
  reading env = Some t ->
  temp_history (final (monitor_cycle env c)) =
  let h := temp_history c ++ [entry env t] in
  if (100 <? List.length h)%nat then tl h else h.
Proof.
  intros H. rewrite (final_monitor_reading _ _ _ H).
  destruct (demand t c); reflexivity.
Qed.

(** ** The loop *)

Lemma temperature_monitor_cons env rest c :
  temperature_monitor (env :: rest) c =
  (result (temperature_monitor rest (final (monitor_cycle env c))),
   final (temperature_monitor rest (final (monitor_cycle env c))),
   trace (monitor_cycle env c)
   ++ trace (temperature_monitor rest (final (monitor_cycle env c)))).
Proof.
  cbn [temperature_monitor]. unfold bind.
  pose proof (monitor_cycle_returns env c) as R.
  destruct (monitor_cycle env c) as [[o c1] tr1]. cbn in R. subst o.
  cbn [final trace result fst snd].
  destruct (temperature_monitor rest c1) as [[o c2] tr2]. reflexivity.
Qed.

Lemma temperature_monitor_returns envs c :
  result (temperature_monitor envs c) = Returns tt.
Proof.
  revert c. induction envs as [|env rest IH]; intros c; [reflexivity|].
  rewrite temperature_monitor_cons. apply IH.
Qed.

(** The loop alone is the system in which only the monitor takes steps. *)
Lemma temperature_monitor_run envs c :
  final (temperature_monitor envs c) = run (map Monitor envs) c.
Proof.
  revert c. induction envs as [|env rest IH]; intros c; [reflexivity|].
  rewrite temperature_monitor_cons. cbn [final fst snd map run fold_left step].
  apply IH.
Qed.

Lemma monitor_envs_map envs : monitor_envs (map Monitor envs) = envs.
Proof. induction envs as [|env rest IH]; cbn; [|rewrite IH]; reflexivity. Qed.

(** ** The handlers in closed form *)

Lemma get_status_eq c :
  get_status c =
  (Returns (jsonify
     [("current_temp", JNum (round1 (current_temp c)));
      ("target_temp", JNum (round1 (target_temp c)));
      ("heater_on", JBool (heater_on c));
      ("auto_mode", JBool (auto_mode c));
      ("temp_history", JArr (map sample_json (last_n 20 (temp_history c))))]),
   c, []).
Proof. reflexivity. Qed.

Lemma set_target_eq data c :
  set_target data c =
  match py_float (dict_get (target data) (VInt 22)) with
  | Raises e => (Raises e, c, [])
  | Returns target =>
      if (50 <=? target)%float && (target <=? 85)%float then
        (Returns (jsonify [("success", JBool true); ("target_temp", JNum target)]),
         with_target_temp target c, [])
      else
        (Returns (with_status 400
                    (jsonify [("success", JBool false);
                              ("error", JStr "Temperature must be between 50-85°F")])),
         c, [])
  end.
Proof.
  unfold set_target, bind, call.
  destruct (py_float _) as [x|e]; [|reflexivity].
  destruct ((50 <=? x)%float && _); reflexivity.
Qed.

Lemma set_mode_eq data c :
  set_mode data c =
  (Returns (jsonify [("success", JBool true);
                     ("auto_mode", JBool (dict_get (auto data) true))]),
   with_auto_mode (dict_get (auto data) true) c, []).
Proof. reflexivity. Qed.

Lemma set_heater_eq data plug c :
  set_heater data plug c =
  let turn_on := dict_get (on data) false in
  if negb (auto_mode c) then
    (match plug with
     | Returns _ =>
         Returns (jsonify [("success", JBool true); ("heater_on", JBool turn_on)])
     | Raises e => Raises e
     end,
     with_heater_on turn_on c,
     [Print ("Heater turned " ++ (if turn_on then "ON" else "OFF"));
      if turn_on then PlugTurnOn else PlugTurnOff])
  else
    (Returns (with_status 400
                (jsonify [("success", JBool false);
                          ("error", JStr "Cannot manually control in auto mode")])),
     c, []).
Proof.
  unfold set_heater. cbv zeta. unfold bind at 1. unfold get.
  destruct (auto_mode c); cbn [negb]; [reflexivity|].
  unfold bind. rewrite control_heater_eq.
  destruct plug as [[]|e]; destruct (dict_get (on data) false); reflexivity.
Qed.

(** ** What a step does to the history and to the current temperature *)

Lemma step_temp_history a c :
  temp_history (step a c) =
  match a with
  | Monitor env =>
      match reading env with
      | Some t =>
          let h := temp_history c ++ [entry env t] in
          if (100 <? List.length h)%nat then tl h else h
      | None => temp_history c
      end
  | _ => temp_history c
  end.
Proof.
  destruct a as [env| |data|data|data plug]; cbn [step].
  - destruct (reading env) as [t|] eqn:R.
    + apply history_monitor_reading, R.
    + rewrite final_monitor_failed by exact R. reflexivity.
  - reflexivity.
  - rewrite set_target_eq.
    destruct (py_float _); [destruct (_ && _)|]; reflexivity.
  - reflexivity.
  - rewrite set_heater_eq. cbv zeta. destruct (negb _); reflexivity.
Qed.

Lemma step_current_temp a c :
  current_temp (step a c) =
  match a with
  | Monitor env =>
      match reading env with
      | Some t => t
      | None => current_temp c
      end
  | _ => current_temp c
  end.
Proof.
  destruct a as [env| |data|data|data plug]; cbn [step].
  - destruct (reading env) as [t|] eqn:R.
    + rewrite (final_monitor_reading _ _ _ R). destruct (demand t c); reflexivity.
    + rewrite final_monitor_failed by exact R. reflexivity.
  - reflexivity.
  - rewrite set_target_eq.
    destruct (py_float _); [destruct (_ && _)|]; reflexivity.
  - reflexivity.
  - rewrite set_heater_eq. cbv zeta. destruct (negb _); reflexivity.
Qed.

Lemma step_history_bound a c :
  List.length (temp_history c) <= 100 -> List.length (temp_history (step a c)) <= 100.
Proof.
  intros H. rewrite step_temp_history.
  destruct a as [env| | | |]; try exact H.
  destruct (reading env) as [t|]; [|exact H].
  cbv zeta. rewrite (append_pop_last_n 100) by exact H.
  rewrite last_n_length. lia.
Qed.

(** The bound on the history is an invariant of the system. *)
Lemma reachable_history_bound c : reachable c -> List.length (temp_history c) <= 100.
Proof.
  induction 1 as [|a c _ IH].
  - cbn. lia.
  - apply step_history_bound, IH.
Qed.

Lemma run_reachable acts c : reachable c -> reachable (run acts c).
Proof.
  revert c. induction acts as [|a acts IH]; intros c H; [exact H|].
  cbn [run fold_left]. apply IH. constructor. exact H.
Qed.

(** However the handlers interleave with the loop, the history is the last
    100 of the entries stored so far. *)
Lemma run_history acts c :
  List.length (temp_history c) <= 100 ->
  temp_history (run acts c)
  = last_n 100 (temp_history c ++ entries (monitor_envs acts)).
Proof.
  revert c. induction acts as [|a acts IH]; intros c H.
  - cbn [run fold_left monitor_envs entries]. rewrite app_nil_r.
    symmetry. apply last_n_short, H.
  - cbn [run fold_left]. change (fold_left _ acts ?x) with (run acts x).
    rewrite IH by (apply step_history_bound, H).
    rewrite step_temp_history.
    destruct a as [env| | | |]; cbn [monitor_envs entries]; try reflexivity.
    destruct (reading env) as [t|]; [|reflexivity].
    cbv zeta. rewrite (append_pop_last_n 100) by exact H.
    rewrite last_n_idem_app, <- app_assoc. reflexivity.
Qed.

Lemma temperature_monitor_history envs c :
  List.length (temp_history c) <= 100 ->
  temp_history (final (temperature_monitor envs c))
  = last_n 100 (temp_history c ++ entries envs).
Proof.
  intros H. rewrite temperature_monitor_run, run_history by exact H.
  rewrite monitor_envs_map. reflexivity.
Qed.

Lemma entries_stores envs samples : Forall2 stores envs samples -> entries envs = samples.
Proof.
  induction 1 as [|env s envs samples (t & R & ->) _ IH]; [reflexivity|].
  cbn [entries]. rewrite R, IH. reflexivity.
Qed.

Lemma stores_entries envs :
  forallb (fun env => match reading env with Some _ => true | None => false end) envs
  = true ->
  Forall2 stores envs (entries envs).
Proof.
  induction envs as [|env rest IH]; cbn [forallb entries]; intros H.
  - constructor.
  - apply andb_prop in H. destruct H as [H1 H2].
    destruct (reading env) as [t|] eqn:R; [|discriminate].
    constructor; [|apply IH, H2].
    exists t. split; [exact R | reflexivity].
Qed.

Lemma run_current_temp_unread acts c :
  (forall env, In (Monitor env) acts -> reading env = None) ->
  current_temp (run acts c) = current_temp c.
Proof.
  revert c. induction acts as [|a acts IH]; intros c H; [reflexivity|].
  cbn [run fold_left]. change (fold_left _ acts ?x) with (run acts x).
  rewrite IH by (intros env I; apply H; right; exact I).
  rewrite step_current_temp.
  destruct a as [env| | | |]; try reflexivity.
  rewrite (H env) by (left; reflexivity). reflexivity.
Qed.

(** * The control loop *)

(** C1. For a successful reading [t] taken in automatic mode, one loop
    iteration applies exactly the hysteresis rule: a reading strictly below
    [target_temp - 0.5] with the heater off commands the plug on and sets
    [heater_on]; a reading strictly above [target_temp + 0.5] with the
    heater on commands the plug off and clears [heater_on]; in every other
    case no command is sent and [heater_on] keeps its value. *)
Theorem hysteresis_rule (env : cycle_env) (t : float) (c : HeaterConfig) :
  reading env = Some t ->
  auto_mode c = true ->
  let r := monitor_cycle env c in
  let below := (t <? target_temp c - 0.5)%float in
  let above := (target_temp c + 0.5 <? t)%float in
  (below = true /\ heater_on c = false ->
     plug_commands (trace r) = [true] /\ heater_on (final r) = true)
  /\ (above = true /\ heater_on c = true ->
     plug_commands (trace r) = [false] /\ heater_on (final r) = false)
  /\ (~ (below = true /\ heater_on c = false) ->
      ~ (above = true /\ heater_on c = true) ->
     plug_commands (trace r) = [] /\ heater_on (final r) = heater_on c).
Proof.
  intros R A. cbv zeta.
  destruct (monitor_cycle_demand env t c R) as [-> ->].
  unfold demand. rewrite A.
  destruct (t <? target_temp c - 0.5)%float, (target_temp c + 0.5 <? t)%float,
    (heater_on c); cbn [andb negb]; repeat split; intros;
    try reflexivity;
    repeat match goal with
           | H : _ /\ _ |- _ => destruct H
           | H : ~ _ |- _ => solve [exfalso; apply H; split; reflexivity]
           end;
    discriminate.
Qed.

Lemma hysteresis_rule_witness :
  plug_commands (trace (monitor_cycle cool_room HeaterConfig_init)) = [true]
  /\ heater_on (final (monitor_cycle cool_room HeaterConfig_init)) = true.
Proof.
  apply (hysteresis_rule cool_room (C2F 18) HeaterConfig_init eq_refl eq_refl).
  split; reflexivity.
Defined.

(** The readings of the specification's hysteresis scenario, with the
    initial target of 66.0. *)
Example hysteresis_65_4_turns_on :
  heater_on (final (monitor_body (Returns (Some 65.4%float)) "08:00:00" (Returns tt)
                      HeaterConfig_init)) = true.
Proof. vm_compute. reflexivity. Qed.

Example hysteresis_65_6_stays_off :
  heater_on (final (monitor_body (Returns (Some 65.6%float)) "08:00:05" (Returns tt)
                      HeaterConfig_init)) = false.
Proof. vm_compute. reflexivity. Qed.

Example hysteresis_66_6_turns_off :
  heater_on (final (monitor_body (Returns (Some 66.6%float)) "08:00:10" (Returns tt)
                      (with_heater_on true HeaterConfig_init))) = false.
Proof. vm_compute. reflexivity. Qed.

Example hysteresis_66_4_stays_on :
  heater_on (final (monitor_body (Returns (Some 66.4%float)) "08:00:15" (Returns tt)
                      (with_heater_on true HeaterConfig_init))) = true.
Proof. vm_compute. reflexivity. Qed.

(** C4. An iteration whose sensor read fails (the driver raises, or yields
    no reading) leaves every field of [config] as it was, sends no command
    to the plug, and does not end the loop: the remaining iterations run
    from the unchanged state. The same holds for the loop body on any
    result of [read_temperature()] that is not a reading. *)
Theorem sensor_failure_skips_cycle (env : cycle_env) (rest : list cycle_env)
    (c : HeaterConfig) :
  reading env = None ->
  final (monitor_cycle env c) = c
  /\ plug_commands (trace (monitor_cycle env c)) = []
  /\ result (monitor_cycle env c) = Returns tt
  /\ final (temperature_monitor (env :: rest) c) = final (temperature_monitor rest c)
  /\ result (temperature_monitor (env :: rest) c) = result (temperature_monitor rest c)
  /\ trace (temperature_monitor (env :: rest) c)
     = trace (monitor_cycle env c) ++ trace (temperature_monitor rest c)
  /\ (forall read now plug,
        (forall t, read <> Returns (Some t)) ->
        final (monitor_body read now plug c) = c
        /\ plug_commands (trace (monitor_body read now plug c)) = []
        /\ result (monitor_body read now plug c) = Returns tt).
Proof.
  intros R. rewrite temperature_monitor_cons.
  destruct (monitor_cycle_failed env c R) as [e ->].
  cbn [final result trace fst snd plug_commands].
  do 6 (split; [reflexivity|]).
  intros read now plug N.
  destruct read as [[t|]|e'].
  - exfalso. apply (N t). reflexivity.
  - rewrite monitor_body_none. repeat split.
  - rewrite monitor_body_raises. repeat split.
Qed.

Lemma sensor_failure_skips_cycle_witness :
  final (monitor_cycle sensor_timeout HeaterConfig_init) = HeaterConfig_init
  /\ final (temperature_monitor [sensor_timeout; cool_room] HeaterConfig_init)
     = final (temperature_monitor [cool_room] HeaterConfig_init).
Proof.
  destruct (sensor_failure_skips_cycle sensor_timeout [cool_room] HeaterConfig_init
              eq_refl) as (H1 & _ & _ & H4 & _).
  split; [exact H1 | exact H4].
Defined.

(** * The bounded history *)

(** C3. The history is a FIFO of at most 100 entries: in every reachable
    state, an iteration that obtains a reading leaves at most 100 entries,
    appends the new entry at the end, and at capacity drops exactly the
    oldest one; and 150 iterations that each obtain a reading leave exactly
    the entries of the last 100 of them, oldest first. *)
Theorem history_bounded_fifo (c : HeaterConfig) :
  reachable c ->
  (forall env t,
     reading env = Some t ->
     let h' := temp_history (final (monitor_cycle env c)) in
     List.length h' <= 100
     /\ (List.length (temp_history c) < 100 -> h' = temp_history c ++ [entry env t])
     /\ (List.length (temp_history c) = 100 ->
         h' = tl (temp_history c) ++ [entry env t]))
  /\ (forall envs samples,
        List.length envs = 150 ->
        Forall2 stores envs samples ->
        temp_history (final (temperature_monitor envs c)) = skipn 50 samples
        /\ List.length (temp_history (final (temperature_monitor envs c))) = 100).
Proof.
  intros HR. pose proof (reachable_history_bound c HR) as B. split.
  - intros env t R. cbv zeta.
    rewrite (history_monitor_reading _ _ _ R). cbv zeta.
    rewrite length_app. cbn [List.length].
    destruct (Nat.ltb_spec 100 (List.length (temp_history c) + 1)) as [L|L].
    + assert (E : List.length (temp_history c) = 100) by lia.
      destruct (temp_history c) as [|s0 h]; [discriminate|].
      cbn [app tl List.length] in *. rewrite length_app. cbn [List.length].
      repeat split; intros; try reflexivity; lia.
    + rewrite length_app. cbn [List.length].
      repeat split; intros; try reflexivity; lia.
  - intros envs samples L F.
    rewrite temperature_monitor_history by exact B.
    rewrite (entries_stores _ _ F).
    assert (LS : List.length samples = 150)
      by (rewrite <- (Forall2_length F); exact L).
    rewrite last_n_app_long by lia.
    split; [|rewrite last_n_length; lia].
    unfold last_n. rewrite LS. reflexivity.
Qed.

Lemma history_bounded_fifo_witness :
  temp_history (final (temperature_monitor warm_up HeaterConfig_init))
  = skipn 50 (entries warm_up)
  /\ List.length (temp_history (final (temperature_monitor warm_up HeaterConfig_init)))
     = 100.
Proof.
  apply (proj2 (history_bounded_fifo HeaterConfig_init reachable_init)).
  - reflexivity.
  - apply stores_entries. vm_compute. reflexivity.
Defined.

Example warm_up_history :
  map temp (temp_history (final (temperature_monitor warm_up HeaterConfig_init)))
  = map (fun n => round1 (C2F (celsius n))) (seq 50 100).
Proof. vm_compute. reflexivity. Qed.

(** The same with requests served between the iterations: the history
    holds the last 100 entries stored by the loop. *)
Corollary history_with_requests acts c :
  reachable c ->
  100 <= List.length (entries (monitor_envs acts)) ->
  temp_history (run acts c) = last_n 100 (entries (monitor_envs acts)).
Proof.
  intros HR L. rewrite run_history by (apply reachable_history_bound, HR).
  apply last_n_app_long, L.
Qed.

(** * The web API *)

(** C2, counterexample. The target [10 ** 400], a JSON integer outside
    [50, 85], does not get the validation error: [float] raises an
    [OverflowError] and the handler ends with that exception. *)
Lemma set_target_huge_integer_not_validated :
  ~ (result (set_target {| target := Some (VInt (10 ^ 400)) |} HeaterConfig_init)
     = Returns (with_status 400
                  (jsonify [("success", JBool false);
                            ("error", JStr "Temperature must be between 50-85°F")]))).
Proof. vm_compute. discriminate. Qed.

(** C2, amended. For a target value [v] that [float] converts to [x],
    [set_target] succeeds exactly when [50 <= x <= 85]. On success
    [target_temp] becomes [x], every other field is kept, [x] is returned,
    and the status read next reports [round(x, 1)]; otherwise the response
    is the 400 validation error and the state is untouched. For a value
    [float] cannot convert, the handler raises that exception, again with
    the state untouched. A JSON float converts to itself, an integer to the
    nearest double unless it is too large, [null], lists and objects never
    convert. *)
Theorem set_target_range (v : value) (c : HeaterConfig) :
  let r := set_target {| target := Some v |} c in
  (forall x,
     py_float v = Returns x ->
     let in_range := (50 <=? x)%float && (x <=? 85)%float in
     (succeeded (result r) <-> in_range = true)
     /\ (in_range = true ->
         result r
         = Returns (jsonify [("success", JBool true); ("target_temp", JNum x)])
         /\ final r = with_target_temp x c
         /\ target_temp (final r) = x
         /\ exists s, result (get_status (final r)) = Returns s
                      /\ field "target_temp" s = Some (JNum (round1 x)))
     /\ (in_range = false ->
         result r
         = Returns (with_status 400
                      (jsonify [("success", JBool false);
                                ("error", JStr "Temperature must be between 50-85°F")]))
         /\ final r = c
         /\ trace r = []))
  /\ (forall e,
        py_float v = Raises e ->
        result r = Raises e /\ ~ succeeded (result r) /\ final r = c /\ trace r = [])
  /\ (forall x, v = VFloat x -> py_float v = Returns x)
  /\ (forall n, v = VInt n ->
                py_float v = Returns (SF2Prim (binary_normalize prec emax n 0 false))
                \/ py_float v = Raises "int too large to convert to float")
  /\ (v = VNone \/ v = VList \/ v = VDict -> exists e, py_float v = Raises e).
Proof.
  cbv zeta. rewrite set_target_eq. cbn [dict_get target].
  split; [|split; [|split; [|split]]].
  - intros x ->.
    destruct ((50 <=? x)%float && (x <=? 85)%float);
      cbn [result final trace fst snd succeeded].
    + split; [split; [reflexivity | intros _; split; reflexivity] |].
      split; [| discriminate].
      intros _. repeat split.
      eexists. split; reflexivity.
    + split; [split; [intros [H _]; discriminate H | discriminate] |].
      split; [discriminate |]. intros _. repeat split.
  - intros e ->. cbn [result final trace fst snd succeeded]. repeat split.
    intros H. exact H.
  - intros x ->. reflexivity.
  - intros n ->. cbn [py_float]. unfold float_of_int.
    destruct (binary_normalize prec emax n 0 false);
      [left | right | left | left]; reflexivity.
  - intros [E | [E | E]]; rewrite E; eexists; reflexivity.
Qed.

Example set_target_72_5 :
  set_target {| target := Some (VFloat 72.5) |} HeaterConfig_init
  = (Returns (jsonify [("success", JBool true); ("target_temp", JNum 72.5%float)]),
     with_target_temp 72.5%float HeaterConfig_init, []).
Proof. vm_compute. reflexivity. Qed.

Example set_target_rejects_49_9_and_nan :
  final (set_target {| target := Some (VFloat 49.9) |} HeaterConfig_init)
  = HeaterConfig_init
  /\ final (set_target {| target := Some (VFloat nan) |} HeaterConfig_init)
     = HeaterConfig_init.
Proof. split; vm_compute; reflexivity. Qed.

(** JSON integers: [70] is accepted as [70.0], [200] and [True] (that is
    [1.0]) get the validation error, [10 ** 400] and [null] raise. *)
Example set_target_other_values :
  set_target {| target := Some (VInt 70) |} HeaterConfig_init
  = (Returns (jsonify [("success", JBool true); ("target_temp", JNum 70%float)]),
     with_target_temp 70%float HeaterConfig_init, [])
  /\ status_of (set_target {| target := Some (VInt 200) |} HeaterConfig_init)
     = Some 400
  /\ status_of (set_target {| target := Some (VBool true) |} HeaterConfig_init)
     = Some 400
  /\ set_target {| target := Some (VInt (10 ^ 400)) |} HeaterConfig_init
     = (Raises "int too large to convert to float", HeaterConfig_init, [])
  /\ set_target {| target := Some VNone |} HeaterConfig_init
     = (Raises "float() argument must be a string or a real number, not 'NoneType'",
        HeaterConfig_init, []).
Proof. repeat split; vm_compute; reflexivity. Qed.

(** C10. A [set_target] body without a target makes the handler use 22,
    which is outside [50, 85]: the request gets the 400 validation error
    and the state is untouched. *)
Theorem set_target_missing (c : HeaterConfig) :
  let r := set_target {| target := None |} c in
  py_float (dict_get (target {| target := None |}) (VInt 22)) = Returns 22%float
  /\ (50 <=? 22)%float && (22 <=? 85)%float = false
  /\ result r
     = Returns (with_status 400
                  (jsonify [("success", JBool false);
                            ("error", JStr "Temperature must be between 50-85°F")]))
  /\ ~ succeeded (result r)
  /\ final r = c
  /\ trace r = [].
Proof.
  cbv zeta. rewrite set_target_eq. cbn [dict_get target].
  change (py_float (VInt 22)) with (Returns 22%float).
  change ((50 <=? 22)%float && (22 <=? 85)%float) with false.
  cbn [result final trace fst snd succeeded].
  repeat split. intros [H _]. discriminate H.
Qed.

(** C8. [set_mode] with a boolean [b] always succeeds, sets [auto_mode] to
    [b], and changes nothing else; it sends nothing to the plug. *)
Theorem set_mode_frame (b : bool) (c : HeaterConfig) :
  let r := set_mode {| auto := Some b |} c in
  succeeded (result r)
  /\ result r = Returns (jsonify [("success", JBool true); ("auto_mode", JBool b)])
  /\ final r = with_auto_mode b c
  /\ auto_mode (final r) = b
  /\ heater_on (final r) = heater_on c
  /\ current_temp (final r) = current_temp c
  /\ target_temp (final r) = target_temp c
  /\ temp_history (final r) = temp_history c
  /\ trace r = [].
Proof. cbv zeta. rewrite set_mode_eq. repeat split. Qed.

(** C7. [get_status] always returns: a 200 response with the current and
    the target temperature rounded to one decimal, [heater_on],
    [auto_mode], and the last [min 20 (len history)] history entries in
    their stored (oldest first) order; the state is not changed. This holds
    in every state, reachable or not. *)
Theorem get_status_snapshot (c : HeaterConfig) :
  let r := get_status c in
  exists s shown older,
    result r = Returns s
    /\ final r = c
    /\ trace r = []
    /\ status s = 200
    /\ field "current_temp" s = Some (JNum (round1 (current_temp c)))
    /\ field "target_temp" s = Some (JNum (round1 (target_temp c)))
    /\ field "heater_on" s = Some (JBool (heater_on c))
    /\ field "auto_mode" s = Some (JBool (auto_mode c))
    /\ field "temp_history" s = Some (JArr (map sample_json shown))
    /\ temp_history c = older ++ shown
    /\ List.length shown = min 20 (List.length (temp_history c))
    /\ List.length shown <= 20.
Proof.
  cbv zeta. rewrite get_status_eq.
  destruct (last_n_suffix 20 (temp_history c)) as [older E].
  exists (jsonify
     [("current_temp", JNum (round1 (current_temp c)));
      ("target_temp", JNum (round1 (target_temp c)));
      ("heater_on", JBool (heater_on c));
      ("auto_mode", JBool (auto_mode c));
      ("temp_history", JArr (map sample_json (last_n 20 (temp_history c))))]),
    (last_n 20 (temp_history c)), older.
  cbn [result final trace fst snd].
  do 9 (split; [reflexivity|]).
  split; [exact E|]. rewrite last_n_length. split; lia.
Qed.

Example status_after_warm_up :
  field "temp_history"
    {| status := 200;
       body := match result (get_status (final (temperature_monitor warm_up
                                                  HeaterConfig_init))) with
               | Returns s => body s
               | Raises _ => JArr []
               end |}
  = Some (JArr (map sample_json (skipn 130 (entries warm_up)))).
Proof. vm_compute. reflexivity. Qed.

(** * Manual control and the smart plug *)

(** C5, counterexample. In manual mode with a plug call that raises,
    [set_heater] does not answer success although [auto_mode] is false:
    success is not equivalent to manual mode. *)
Lemma set_heater_success_not_iff_manual :
  ~ (succeeded (result (set_heater {| on := Some true |} (Raises "timed out") manual))
     <-> auto_mode manual = false).
Proof.
  intros [_ H]. exact (H eq_refl).
Qed.

(** C5, amended. [set_heater] is refused exactly when [auto_mode] is true.
    In manual mode it sets [heater_on] to the requested value, sends the
    command to the plug, and answers success exactly when the plug call
    returns (an exception of the plug propagates out of the handler). In
    automatic mode it answers the 400 mode error, sends nothing and leaves
    the state untouched. *)
Theorem set_heater_manual_only (data : set_heater_json) (plug : outcome unit)
    (c : HeaterConfig) :
  let turn_on := dict_get (on data) false in
  let r := set_heater data plug c in
  (auto_mode c = false ->
     plug_commands (trace r) = [turn_on]
     /\ final r = with_heater_on turn_on c
     /\ heater_on (final r) = turn_on
     /\ (succeeded (result r) <-> plug = Returns tt)
     /\ (plug = Returns tt ->
         result r
         = Returns (jsonify [("success", JBool true); ("heater_on", JBool turn_on)]))
     /\ (forall e, plug = Raises e -> result r = Raises e))
  /\ (auto_mode c = true ->
      result r
      = Returns (with_status 400
                   (jsonify [("success", JBool false);
                             ("error", JStr "Cannot manually control in auto mode")]))
      /\ ~ succeeded (result r)
      /\ final r = c
      /\ trace r = [])
  /\ (succeeded (result r) -> auto_mode c = false).
Proof.
  cbv zeta. rewrite set_heater_eq. cbv zeta.
  destruct (auto_mode c); cbn [negb result final trace fst snd].
  - split; [discriminate|]. split.
    + intros _. repeat split. intros [H _]. discriminate H.
    + intros [H _]. discriminate H.
  - split; [|split; [discriminate | reflexivity]].
    intros _.
    destruct plug as [[]|e], (dict_get (on data) false);
      cbn [plug_commands succeeded]; repeat split;
      try discriminate; try reflexivity; try tauto;
      intros e' H; inversion H; reflexivity.
Qed.

Example set_heater_in_manual_mode :
  set_heater {| on := Some true |} (Returns tt) manual
  = (Returns (jsonify [("success", JBool true); ("heater_on", JBool true)]),
     with_heater_on true manual, [Print "Heater turned ON"; PlugTurnOn]).
Proof. vm_compute. reflexivity. Qed.

(** C6, counterexample. In the initial state a plug call that raises
    leaves [heater_on] changed from [False] to [True]: the command that did
    not take effect is recorded. *)
Lemma failed_command_is_recorded :
  ~ (heater_on (final (control_heater true (Raises "timed out") HeaterConfig_init))
     = heater_on HeaterConfig_init).
Proof. cbn. discriminate. Qed.

(** C6, amended. When the plug call raises, [control_heater] has already
    set [heater_on] to the commanded value and it stays so; the exception
    leaves [control_heater]. In the loop it is caught and reported, and the
    iteration ends normally with [heater_on] at the commanded value; out of
    [set_heater] it propagates, again with [heater_on] changed. *)
Theorem control_heater_records_before_command (turn_on : bool) (e : string)
    (c : HeaterConfig) :
  let r := control_heater turn_on (Raises e) c in
  result r = Raises e
  /\ final r = with_heater_on turn_on c
  /\ heater_on (final r) = turn_on
  /\ plug_commands (trace r) = [turn_on]
  /\ (forall env t,
        reading env = Some t -> env_plug env = Raises e ->
        auto_mode c = true ->
        (t <? target_temp c - 0.5)%float = true -> heater_on c = false ->
        result (monitor_cycle env c) = Returns tt
        /\ heater_on (final (monitor_cycle env c)) = true)
  /\ (forall env t,
        reading env = Some t -> env_plug env = Raises e ->
        auto_mode c = true ->
        (target_temp c + 0.5 <? t)%float = true -> heater_on c = true ->
        result (monitor_cycle env c) = Returns tt
        /\ heater_on (final (monitor_cycle env c)) = false)
  /\ (forall data,
        auto_mode c = false ->
        result (set_heater data (Raises e) c) = Raises e
        /\ heater_on (final (set_heater data (Raises e) c))
           = dict_get (on data) false).
Proof.
  cbv zeta. rewrite control_heater_eq. cbn [result final trace fst snd].
  split; [reflexivity|]. split; [reflexivity|]. split; [reflexivity|].
  split; [destruct turn_on; reflexivity|]. split; [|split].
  - intros env t R P A B H. split; [apply monitor_cycle_returns|].
    rewrite (proj1 (monitor_cycle_demand env t c R)).
    unfold demand. rewrite A, B, H. reflexivity.
  - intros env t R P A B H. split; [apply monitor_cycle_returns|].
    rewrite (proj1 (monitor_cycle_demand env t c R)).
    unfold demand. rewrite A, B, H.
    destruct (t <? target_temp c - 0.5)%float; reflexivity.
  - intros data A. rewrite set_heater_eq. cbv zeta. rewrite A. split; reflexivity.
Qed.

Example failed_command_in_loop :
  let env := {| env_dht := Returns (Some 18%float); env_now := "07:30:00";
                env_plug := Raises "timed out" |} in
  monitor_cycle env HeaterConfig_init
  = (Returns tt,
     {| current_temp := 64.4%float; target_temp := 66%float; heater_on := true;
        auto_mode := true;
        temp_history := [{| time := "07:30:00"; temp := 64.4%float |}] |},
     [Print "Heater turned ON"; PlugTurnOn;
      Print "Error in temperature monitor: timed out"; Sleep 5]).
Proof. vm_compute. reflexivity. Qed.

(** * The current temperature before the first reading *)

(** C9, counterexample. Before any iteration has run, the status already
    reports a number, the default 64.0, as the current temperature. *)
Lemma default_reading_is_reported :
  ~ (forall s x,
       result (get_status HeaterConfig_init) = Returns s ->
       field "current_temp" s <> Some (JNum x)).
Proof.
  intros H. apply (H _ 64%float eq_refl). vm_compute. reflexivity.
Qed.

(** C9, amended. [current_temp] is never absent: it starts at the default
    64.0 and keeps it, and the status reports 64.0, through any steps of the
    system in which no iteration obtains a reading; an iteration that
    obtains a reading replaces it by that reading. *)
Theorem current_temp_default_until_first_read (acts : list action) :
  (forall env, In (Monitor env) acts -> reading env = None) ->
  current_temp (run acts HeaterConfig_init) = 64%float
  /\ (exists s, result (get_status (run acts HeaterConfig_init)) = Returns s
                /\ field "current_temp" s = Some (JNum 64%float))
  /\ (forall env t,
        reading env = Some t ->
        current_temp (final (monitor_cycle env (run acts HeaterConfig_init))) = t).
Proof.
  intros H. pose proof (run_current_temp_unread acts HeaterConfig_init H) as E.
  cbn [current_temp HeaterConfig_init] in E. repeat split.
  - exact E.
  - rewrite get_status_eq. eexists. split; [reflexivity|].
    cbn [field body jsonify assoc String.eqb Ascii.eqb Bool.eqb]. rewrite E.
    vm_compute. reflexivity.
  - intros env t R. pose proof (step_current_temp (Monitor env)) as S.
    cbn [step] in S. rewrite S, R. reflexivity.
Qed.

Lemma current_temp_default_until_first_read_witness :
  current_temp
    (run [Monitor sensor_timeout; GetStatus; SetMode {| auto := Some false |}]
         HeaterConfig_init) = 64%float.
Proof.
  apply (current_temp_default_until_first_read
           [Monitor sensor_timeout; GetStatus; SetMode {| auto := Some false |}]).
  intros env [H|[H|[H|[]]]]; inversion H. reflexivity.
Defined.

(** * Further properties of the loop *)

Lemma plug_commands_app tr1 tr2 :
  plug_commands (tr1 ++ tr2) = plug_commands tr1 ++ plug_commands tr2.
Proof.
  induction tr1 as [|[msg| | |n] tr1 IH]; cbn [app plug_commands];
    rewrite ?IH; reflexivity.
Qed.

Lemma sleeps_app tr1 tr2 : sleeps (tr1 ++ tr2) = sleeps tr1 ++ sleeps tr2.
Proof.
  induction tr1 as [|[msg| | |n] tr1 IH]; cbn [app sleeps];
    rewrite ?IH; reflexivity.
Qed.

(** The trace of an iteration, by cases on the read. *)
Lemma monitor_cycle_trace env c :
  exists prints, trace (monitor_cycle env c) = prints ++ [Sleep 5]
                 /\ sleeps prints = [].
Proof.
  destruct (reading env) as [t|] eqn:R.
  - rewrite (monitor_cycle_reading _ _ _ R), monitor_body_reading. cbv zeta.
    destruct (demand t _) as [b|].
    + exists ([Print ("Heater turned " ++ (if b then "ON" else "OFF"));
               if b then PlugTurnOn else PlugTurnOff] ++ caught (env_plug env)).
      cbn [trace snd]. rewrite <- app_assoc. split; [reflexivity|].
      destruct b, (env_plug env) as [[]|e]; reflexivity.
    + exists []. split; reflexivity.
  - destruct (monitor_cycle_failed env c R) as [e ->].
    exists [Print ("Error in temperature monitor: " ++ e)]. split; reflexivity.
Qed.

(** X1. The loop never dies and keeps its pace: whatever the sensor and the
    plug do in each iteration (return, return nothing, raise), [n]
    iterations all run, none raises out of the loop, and each ends with one
    [time.sleep(5)]. *)
Theorem loop_survives_every_failure (envs : list cycle_env) (c : HeaterConfig) :
  result (temperature_monitor envs c) = Returns tt
  /\ sleeps (trace (temperature_monitor envs c)) = repeat 5 (List.length envs).
Proof.
  split; [apply temperature_monitor_returns|].
  revert c. induction envs as [|env rest IH]; intros c; [reflexivity|].
  rewrite temperature_monitor_cons. cbn [trace snd].
  change (snd ?x) with (trace x). rewrite sleeps_app, IH.
  destruct (monitor_cycle_trace env c) as (prints & -> & P).
  rewrite sleeps_app, P. reflexivity.
Qed.

Lemma monitor_cycle_frame env c :
  target_temp (final (monitor_cycle env c)) = target_temp c
  /\ auto_mode (final (monitor_cycle env c)) = auto_mode c.
Proof.
  destruct (reading env) as [t|] eqn:R.
  - rewrite (final_monitor_reading _ _ _ R).
    destruct (demand t c); split; reflexivity.
  - rewrite (final_monitor_failed _ _ R). split; reflexivity.
Qed.

(** X2. The loop never changes the setpoint or the mode: after any number
    of iterations, with any sensor and plug behaviour, [target_temp] and
    [auto_mode] are what they were. *)
Theorem loop_keeps_target_and_mode (envs : list cycle_env) (c : HeaterConfig) :
  target_temp (final (temperature_monitor envs c)) = target_temp c
  /\ auto_mode (final (temperature_monitor envs c)) = auto_mode c.
Proof.
  revert c. induction envs as [|env rest IH]; intros c; [split; reflexivity|].
  rewrite temperature_monitor_cons. cbn [final fst snd].
  change (snd (fst ?x)) with (final x).
  destruct (IH (final (monitor_cycle env c))) as [-> ->].
  apply monitor_cycle_frame.
Qed.

(** An iteration sends no command and keeps [heater_on], or sends the one
    command that flips it. *)
Lemma monitor_cycle_command env c :
  (plug_commands (trace (monitor_cycle env c)) = []
   /\ heater_on (final (monitor_cycle env c)) = heater_on c)
  \/ (plug_commands (trace (monitor_cycle env c)) = [negb (heater_on c)]
      /\ heater_on (final (monitor_cycle env c)) = negb (heater_on c)).
Proof.
  destruct (reading env) as [t|] eqn:R.
  - destruct (monitor_cycle_demand env t c R) as [-> ->].
    unfold demand.
    destruct (auto_mode c); [|left; split; reflexivity].
    destruct (heater_on c); rewrite ?andb_false_r, ?andb_true_r; cbn [negb].
    + destruct (target_temp c + 0.5 <? t)%float;
        [right | left]; split; reflexivity.
    + destruct (t <? target_temp c - 0.5)%float;
        [right | left]; split; reflexivity.
  - destruct (monitor_cycle_failed env c R) as [e ->].
    left. split; reflexivity.
Qed.

Lemma last_cons {A} (x d : A) l : last (x :: l) d = last l x.
Proof.
  revert x d. induction l as [|y l IH]; intros x d; [reflexivity|].
  change (last (x :: y :: l) d) with (last (y :: l) d).
  rewrite !IH. reflexivity.
Qed.

(** X3. The loop never repeats a command: an iteration sends at most one
    command to the plug, and only one that flips [heater_on]; so over any
    run of the loop the commands alternate, starting with the opposite of
    the initial [heater_on], and [heater_on] ends as the last command sent
    (or unchanged when none was). *)
Theorem loop_commands_alternate (envs : list cycle_env) (c : HeaterConfig) :
  let cmds := plug_commands (trace (temperature_monitor envs c)) in
  alternates (heater_on c) cmds = true
  /\ heater_on (final (temperature_monitor envs c)) = last cmds (heater_on c)
  /\ List.length cmds <= List.length envs.
Proof.
  cbv zeta. revert c. induction envs as [|env rest IH]; intros c.
  - cbn. repeat split. lia.
  - rewrite temperature_monitor_cons. cbn [trace final fst snd].
    change (snd (fst ?x)) with (final x). change (snd ?x) with (trace x).
    rewrite plug_commands_app.
    destruct (IH (final (monitor_cycle env c))) as (A & F & L).
    destruct (monitor_cycle_command env c) as [[E H]|[E H]];
      rewrite E; rewrite H in A, F; cbn [app alternates List.length].
    + repeat split; [exact A | exact F | lia].
    + rewrite A, F, last_cons, Bool.eqb_reflx. cbn [andb].
      repeat split. lia.
Qed.

(** X4. In manual mode the loop only measures: an iteration with a reading
    stores it as [current_temp] and appends its history entry, but sends
    nothing to the plug and leaves [heater_on] alone, however far the
    reading is from the target. *)
Theorem manual_mode_loop_only_measures (env : cycle_env) (t : float)
    (c : HeaterConfig) :
  auto_mode c = false ->
  reading env = Some t ->
  plug_commands (trace (monitor_cycle env c)) = []
  /\ heater_on (final (monitor_cycle env c)) = heater_on c
  /\ current_temp (final (monitor_cycle env c)) = t
  /\ exists older,
       temp_history (final (monitor_cycle env c)) = older ++ [entry env t].
Proof.
  intros A R.
  destruct (monitor_cycle_demand env t c R) as [-> ->].
  rewrite (final_monitor_reading _ _ _ R).
  unfold demand. rewrite A.
  split; [reflexivity|]. split; [reflexivity|]. split; [reflexivity|].
  change (temp_history (store_reading (env_now env) t c))
    with (let h := temp_history c ++ [entry env t] in
          if (100 <? List.length h)%nat then tl h else h).
  cbv zeta.
  destruct (100 <? _)%nat eqn:L.
  - apply Nat.ltb_lt in L. rewrite length_app in L. cbn [List.length] in L.
    destruct (temp_history c) as [|s0 h]; [cbn in L; lia|].
    exists h. reflexivity.
  - exists (temp_history c). reflexivity.
Qed.

Lemma manual_mode_loop_only_measures_witness :
  plug_commands (trace (monitor_cycle cool_room manual)) = []
  /\ heater_on (final (monitor_cycle cool_room manual)) = false
  /\ current_temp (final (monitor_cycle cool_room manual)) = C2F 18.
Proof.
  destruct (manual_mode_loop_only_measures cool_room (C2F 18) manual
              eq_refl eq_refl) as (H1 & H2 & H3 & _).
  repeat split; assumption.
Defined.

(** * Further properties of the sensor path *)

(** X5. [read_temperature] never returns [None]: it returns a float or
    raises. When the driver has no reading ([None]), the conversion raises
    instead, so the loop's test [temp is not None] never fails and the
    iteration goes to the [except] clause, with the state untouched. *)
Theorem read_temperature_never_none (dht : outcome (option float)) :
  read_temperature dht <> Returns None
  /\ (dht = Returns None ->
      (exists e, read_temperature dht = Raises e)
      /\ forall now plug c,
           exists e,
             monitor_cycle {| env_dht := dht; env_now := now; env_plug := plug |} c
             = (Returns tt, c,
                [Print ("Error in temperature monitor: " ++ e); Sleep 5]))
  /\ (forall t, dht = Returns (Some t) ->
                read_temperature dht = Returns (Some (C2F t)))
  /\ (forall e, dht = Raises e -> read_temperature dht = Raises e).
Proof.
  split; [destruct dht as [[t|]|e]; discriminate|].
  split; [|split; intros x ->; reflexivity].
  intros ->. split; [eexists; reflexivity|].
  intros now plug c. eexists. reflexivity.
Qed.

(** X6. Readings are stored in Fahrenheit: when the driver returns [t]
    degrees Celsius, the iteration sets [current_temp] to [t * 9 / 5 + 32]
    and its history entry holds the time of the iteration and that value
    rounded to one decimal; the value compared with the target is the
    Fahrenheit one. *)
Theorem celsius_reading_stored_as_fahrenheit (t : float) (now : string)
    (plug : outcome unit) (c : HeaterConfig) :
  let env := {| env_dht := Returns (Some t); env_now := now; env_plug := plug |} in
  let c' := final (monitor_cycle env c) in
  reading env = Some (t * 9 / 5 + 32)%float
  /\ current_temp c' = (t * 9 / 5 + 32)%float
  /\ (exists older,
        temp_history c'
        = older ++ [{| time := now; temp := round1 (t * 9 / 5 + 32)%float |}])
  /\ (auto_mode c = true -> heater_on c = false ->
      (heater_on c' = true <-> (t * 9 / 5 + 32 <? target_temp c - 0.5)%float = true)).
Proof.
  cbv zeta.
  set (env := {| env_dht := Returns (Some t); env_now := now; env_plug := plug |}).
  assert (R : reading env = Some (C2F t)) by reflexivity.
  split; [exact R|].
  pose proof (step_current_temp (Monitor env) c) as SC. cbn [step] in SC.
  rewrite R in SC. split; [exact SC|]. split.
  - pose proof (step_temp_history (Monitor env) c) as SH. cbn [step] in SH.
    rewrite R in SH. cbv zeta in SH. rewrite SH.
    destruct (100 <? _)%nat eqn:L.
    + apply Nat.ltb_lt in L. rewrite length_app in L. cbn [List.length] in L.
      destruct (temp_history c) as [|s0 h]; [cbn in L; lia|].
      exists h. reflexivity.
    + exists (temp_history c). reflexivity.
  - intros A H. rewrite (proj1 (monitor_cycle_demand env (C2F t) c R)).
    unfold demand, C2F. rewrite A, H. cbn [negb]. rewrite andb_true_r, andb_false_r.
    destruct (t * 9 / 5 + 32 <? target_temp c - 0.5)%float; split;
      intros; try reflexivity; try discriminate; assumption.
Qed.

(** * Invariants of the running system *)

Lemma step_target_temp a c :
  target_temp (step a c) =
  match a with
  | SetTarget data =>
      match py_float (dict_get (target data) (VInt 22)) with
      | Returns v =>
          if (50 <=? v)%float && (v <=? 85)%float then v else target_temp c
      | Raises _ => target_temp c
      end
  | _ => target_temp c
  end.
Proof.
  destruct a as [env| |data|data|data plug]; cbn [step].
  - apply monitor_cycle_frame.
  - reflexivity.
  - rewrite set_target_eq.
    destruct (py_float _); [destruct (_ && _)|]; reflexivity.
  - reflexivity.
  - rewrite set_heater_eq. cbv zeta. destruct (negb _); reflexivity.
Qed.

(** X7. The setpoint is always valid: in every state the program can
    reach, [50 <= target_temp <= 85]. It starts at 66.0, [set_target]
    writes it only after the range check, and nothing else writes it. *)
Theorem target_always_in_range (c : HeaterConfig) :
  reachable c ->
  (50 <=? target_temp c)%float && (target_temp c <=? 85)%float = true.
Proof.
  induction 1 as [|a c _ IH]; [reflexivity|].
  rewrite step_target_temp.
  destruct a as [env| |data|data|data plug]; try exact IH.
  destruct (py_float (dict_get (target data) (VInt 22))) as [v|e]; [|exact IH].
  destruct ((50 <=? v)%float && (v <=? 85)%float) eqn:E; [exact E | exact IH].
Qed.

Lemma target_always_in_range_witness :
  (50 <=? target_temp
            (run [SetTarget {| target := Some (VFloat 72.5) |};
                  SetTarget {| target := Some (VFloat 90) |};
              SetTarget {| target := Some (VInt (10 ^ 400)) |};
                  Monitor cool_room] HeaterConfig_init))%float
  && (target_temp
        (run [SetTarget {| target := Some (VFloat 72.5) |};
              SetTarget {| target := Some (VFloat 90) |};
              SetTarget {| target := Some (VInt (10 ^ 400)) |};
              Monitor cool_room] HeaterConfig_init) <=? 85)%float = true.
Proof.
  apply (target_always_in_range
           (run [SetTarget {| target := Some (VFloat 72.5) |};
                 SetTarget {| target := Some (VFloat 90) |};
              SetTarget {| target := Some (VInt (10 ^ 400)) |};
                 Monitor cool_room] HeaterConfig_init)).
  apply run_reachable. constructor.
Defined.

Lemma run_app acts1 acts2 c : run (acts1 ++ acts2) c = run acts2 (run acts1 c).
Proof. apply fold_left_app. Qed.

Lemma run_cons a acts c : run (a :: acts) c = run acts (step a c).
Proof. reflexivity. Qed.


Example set_target_sequence :
  target_temp (run (target_requests [70%float; 49.9%float; 85%float; 85.1%float; nan])
                   HeaterConfig_init) = 85%float.
Proof. vm_compute. reflexivity. Qed.

(** X9. The reported temperature and the history agree: in every reachable
    state with a non-empty history, the newest history entry holds
    [current_temp] rounded to one decimal, which is what the status
    reports as the current temperature. *)
Theorem newest_entry_is_current_temp (c : HeaterConfig) :
  reachable c ->
  forall older s, temp_history c = older ++ [s] -> temp s = round1 (current_temp c).
Proof.
  induction 1 as [|a c _ IH].
  - intros older s E. destruct older; discriminate E.
  - intros older s. rewrite step_temp_history, step_current_temp.
    destruct a as [env| | | |]; try apply IH.
    destruct (reading env) as [t|]; [|apply IH].
    cbv zeta. intros E.
    assert (L : last (temp_history c ++ [entry env t]) s = entry env t)
      by apply last_last.
    destruct (100 <? _)%nat.
    + destruct (temp_history c) as [|s0 h].
      * cbn [app tl] in E. destruct older; discriminate E.
      * cbn [app tl] in E.
        assert (L' : last (h ++ [entry env t]) s = entry env t) by apply last_last.
        rewrite E, last_last in L'. subst s. reflexivity.
    + rewrite E, last_last in L. subst s. reflexivity.
Qed.

Lemma newest_entry_is_current_temp_witness :
  temp (entry cool_room (C2F 18))
  = round1 (current_temp (step (Monitor cool_room) HeaterConfig_init)).
Proof.
  apply (newest_entry_is_current_temp (step (Monitor cool_room) HeaterConfig_init)
           (reachable_step _ _ reachable_init) []).
  reflexivity.
Defined.

(** X10. Requests never touch the history: however [get_status],
    [set_target], [set_mode] and [set_heater] calls interleave with the
    loop from start-up, the history is the last 100 of the entries stored
    by the iterations that obtained a reading, in order. *)
Theorem history_only_written_by_loop (acts : list action) :
  temp_history (run acts HeaterConfig_init)
  = last_n 100 (entries (monitor_envs acts))
  /\ List.length (temp_history (run acts HeaterConfig_init))
     = min 100 (List.length (entries (monitor_envs acts))).
Proof.
  assert (E : temp_history (run acts HeaterConfig_init)
              = last_n 100 (entries (monitor_envs acts))).
  { rewrite run_history by (cbn; lia). reflexivity. }
  split; [exact E|]. rewrite E. apply last_n_length.
Qed.

Lemma step_command a c :
  (plug_commands (step_trace a c) = [] /\ heater_on (step a c) = heater_on c)
  \/ (exists b, plug_commands (step_trace a c) = [b] /\ heater_on (step a c) = b).
Proof.
  destruct a as [env| |data|data|data plug]; cbn [step step_trace].
  - destruct (monitor_cycle_command env c) as [H|H]; [left; exact H|].
    right. eexists. exact H.
  - left. split; reflexivity.
  - left. rewrite set_target_eq.
    destruct (py_float _); [destruct (_ && _)|]; split; reflexivity.
  - left. split; reflexivity.
  - rewrite set_heater_eq. cbv zeta.
    destruct (negb (auto_mode c)); [right | left; split; reflexivity].
    exists (dict_get (on data) false).
    destruct (dict_get (on data) false); split; reflexivity.
Qed.

(** X11. [heater_on] is the last command sent: over any interleaving of
    loop iterations and requests, [heater_on] equals the argument of the
    most recent [turn_on]/[turn_off] call made to the plug, whether or not
    that call returned, and its old value when no call was made. *)
Theorem heater_on_is_last_command (acts : list action) (c : HeaterConfig) :
  heater_on (run acts c) = last (plug_commands (run_trace acts c)) (heater_on c).
Proof.
  revert c. induction acts as [|a acts IH]; intros c; [reflexivity|].
  rewrite run_cons. cbn [run_trace]. rewrite plug_commands_app, IH.
  destruct (step_command a c) as [[E H]|(b & E & H)]; rewrite E, H.
  - reflexivity.
  - cbn [app]. rewrite last_cons. reflexivity.
Qed.

(** * Further properties of the web API *)

(** X12. A [set_mode] body without ["auto"] switches to automatic mode: the
    handler answers success with [auto_mode] true and changes no other
    field. *)
Theorem set_mode_missing_means_auto (c : HeaterConfig) :
  let r := set_mode {| auto := None |} c in
  result r = Returns (jsonify [("success", JBool true); ("auto_mode", JBool true)])
  /\ final r = with_auto_mode true c
  /\ trace r = []
  /\ forall data plug, ~ succeeded (result (set_heater data plug (final r))).
Proof.
  cbv zeta. rewrite set_mode_eq. cbn [result final trace fst snd dict_get auto].
  repeat split. intros data plug. rewrite set_heater_eq. cbv zeta.
  cbn [auto_mode with_auto_mode negb result fst succeeded].
  intros [H _]. discriminate H.
Qed.

(** X13. A [set_heater] body without ["on"] means off: in manual mode the
    handler sends [turn_off] to the plug and clears [heater_on]; in
    automatic mode it is refused like any other. *)
Theorem set_heater_missing_means_off (plug : outcome unit) (c : HeaterConfig) :
  let r := set_heater {| on := None |} plug c in
  (auto_mode c = false ->
     plug_commands (trace r) = [false] /\ final r = with_heater_on false c)
  /\ (auto_mode c = true -> ~ succeeded (result r) /\ final r = c /\ trace r = []).
Proof.
  cbv zeta. rewrite set_heater_eq. cbv zeta. cbn [dict_get on].
  destruct (auto_mode c); cbn [negb result final trace fst snd].
  - split; [discriminate|]. intros _. repeat split. intros [H _]. discriminate H.
  - split; [|discriminate]. intros _. split; reflexivity.
Qed.

(** X14. Mode then manual command: after [set_mode] with [auto = false], a
    [set_heater] request whose plug call returns succeeds and sets
    [heater_on] to the requested value, from any state; after [set_mode]
    with [auto = true] it is refused and changes nothing. *)
Theorem set_mode_then_set_heater (b : bool) (c : HeaterConfig) :
  let manual_c := final (set_mode {| auto := Some false |} c) in
  let auto_c := final (set_mode {| auto := Some true |} c) in
  (succeeded (result (set_heater {| on := Some b |} (Returns tt) manual_c))
   /\ plug_commands (trace (set_heater {| on := Some b |} (Returns tt) manual_c)) = [b]
   /\ final (set_heater {| on := Some b |} (Returns tt) manual_c)
      = with_heater_on b (with_auto_mode false c))
  /\ (forall plug,
        ~ succeeded (result (set_heater {| on := Some b |} plug auto_c))
        /\ final (set_heater {| on := Some b |} plug auto_c) = with_auto_mode true c
        /\ trace (set_heater {| on := Some b |} plug auto_c) = []).
Proof.
  cbv zeta. rewrite !set_mode_eq. cbn [final fst snd dict_get auto]. split.
  - rewrite set_heater_eq. cbv zeta.
    cbn [auto_mode with_auto_mode negb result final trace fst snd dict_get on].
    destruct b; repeat split.
  - intros plug. rewrite set_heater_eq. cbv zeta.
    cbn [auto_mode with_auto_mode negb result final trace fst snd].
    repeat split. intros [H _]. discriminate H.
Qed.

Lemma manual_loop_idle envs c :
  auto_mode c = false ->
  plug_commands (trace (temperature_monitor envs c)) = []
  /\ heater_on (final (temperature_monitor envs c)) = heater_on c.
Proof.
  revert c. induction envs as [|env rest IH]; intros c A; [split; reflexivity|].
  rewrite temperature_monitor_cons. cbn [trace final fst snd].
  change (snd (fst ?x)) with (final x). change (snd ?x) with (trace x).
  rewrite plug_commands_app.
  assert (A' : auto_mode (final (monitor_cycle env c)) = false)
    by (rewrite (proj2 (monitor_cycle_frame env c)); exact A).
  destruct (IH _ A') as [-> ->].
  destruct (reading env) as [t|] eqn:R.
  - destruct (monitor_cycle_demand env t c R) as [-> ->].
    unfold demand. rewrite A. split; reflexivity.
  - destruct (monitor_cycle_failed env c R) as [e ->]. split; reflexivity.
Qed.

(** X15. Switching to manual keeps the heater as it is: [set_mode] with
    [auto = false] sends nothing to the plug and keeps [heater_on], and the
    loop then leaves the heater alone for as long as it runs, whatever it
    reads. *)
Theorem switch_to_manual_keeps_heater (envs : list cycle_env) (c : HeaterConfig) :
  let r := set_mode {| auto := Some false |} c in
  plug_commands (trace r) = []
  /\ heater_on (final r) = heater_on c
  /\ plug_commands (trace (temperature_monitor envs (final r))) = []
  /\ heater_on (final (temperature_monitor envs (final r))) = heater_on c.
Proof.
  cbv zeta. rewrite set_mode_eq. cbn [trace final fst snd dict_get auto].
  split; [reflexivity|]. split; [reflexivity|].
  apply (manual_loop_idle envs (with_auto_mode false c)). reflexivity.
Qed.

Lemma last_n_last_n {A} n m (l : list A) :
  n <= m -> last_n n (last_n m l) = last_n n l.
Proof.
  intros H. unfold last_n. rewrite length_skipn, skipn_skipn. f_equal. lia.
Qed.

(** X16. The status shows the 20 most recent readings: however requests
    interleave with the loop from start-up, [get_status] lists the entries
    of the last 20 iterations that obtained a reading, oldest first. *)
Theorem status_shows_last_20_readings (acts : list action) :
  exists s,
    result (get_status (run acts HeaterConfig_init)) = Returns s
    /\ field "temp_history" s
       = Some (JArr (map sample_json (last_n 20 (entries (monitor_envs acts))))).
Proof.
  rewrite get_status_eq. eexists. split; [reflexivity|].
  cbn [field body jsonify assoc String.eqb Ascii.eqb Bool.eqb].
  rewrite run_history by (cbn; lia). cbn [temp_history HeaterConfig_init app].
  rewrite last_n_last_n by lia. reflexivity.
Qed.

(** * Start-up: reading the credentials *)

Lemma split_cons ch rest :
  split (ch :: rest) =
  if isspace ch then split rest
  else
    match rest with
    | [] => [[ch]]
    | ch' :: _ =>
        if isspace ch' then [ch] :: split rest
        else
          match split rest with
          | tok :: toks => (ch :: tok) :: toks
          | [] => [[ch]]
          end
    end.
Proof. reflexivity. Qed.

Lemma split_blank ws s : blank ws -> split (ws ++ s) = split s.
Proof.
  unfold blank. induction ws as [|ch ws IH]; cbn [forallb app]; intros H;
    [reflexivity|].
  apply andb_prop in H. destruct H as [H1 H2].
  rewrite split_cons, H1. apply IH, H2.
Qed.

Lemma split_all_blank ws : blank ws -> split ws = [].
Proof.
  intros H. rewrite <- (app_nil_r ws). rewrite split_blank by exact H. reflexivity.
Qed.

Lemma token_cons ch tok :
  token (ch :: tok) -> isspace ch = false /\ (tok = [] \/ token tok).
Proof.
  intros [_ F]. cbn [forallb] in F. apply andb_prop in F. destruct F as [F1 F2].
  apply negb_true_iff in F1. split; [exact F1|].
  destruct tok as [|ch' tok]; [left; reflexivity|].
  right. split; [discriminate | exact F2].
Qed.

Lemma split_token_then_space tok sp s :
  token tok -> isspace sp = true -> split (tok ++ sp :: s) = tok :: split s.
Proof.
  intros T S. induction tok as [|ch tok IH]; [destruct T as [N _]; contradiction|].
  destruct (token_cons _ _ T) as [F1 [->|T']].
  - cbn [app]. rewrite split_cons, F1, S. rewrite (split_cons sp), S. reflexivity.
  - specialize (IH T').
    destruct tok as [|ch' tok]; [destruct T' as [N _]; contradiction|].
    destruct (token_cons _ _ T') as [F2 _].
    cbn [app] in *. rewrite split_cons, F1, F2, IH. reflexivity.
Qed.

Lemma split_token tok : token tok -> split tok = [tok].
Proof.
  intros T. induction tok as [|ch tok IH]; [destruct T as [N _]; contradiction|].
  destruct (token_cons _ _ T) as [F1 [->|T']].
  - rewrite split_cons, F1. reflexivity.
  - specialize (IH T').
    destruct tok as [|ch' tok]; [destruct T' as [N _]; contradiction|].
    destruct (token_cons _ _ T') as [F2 _].
    rewrite split_cons, F1, F2, IH. reflexivity.
Qed.

Lemma split_token_then_blank tok ws s :
  token tok -> blank ws -> ws <> [] -> split (tok ++ ws ++ s) = tok :: split s.
Proof.
  intros T B N. destruct ws as [|sp ws]; [contradiction|].
  unfold blank in B. cbn [forallb] in B. apply andb_prop in B. destruct B as [B1 B2].
  cbn [app]. rewrite (split_token_then_space _ _ _ T B1).
  rewrite split_blank by exact B2. reflexivity.
Qed.

(** Every item of [split] is a non-empty run without whitespace, and the
    items together are the text with its whitespace removed. *)
Lemma split_tokens s :
  Forall token (split s)
  /\ List.concat (split s) = filter (fun ch => negb (isspace ch)) s.
Proof.
  induction s as [|ch rest [IHt IHc]]; [split; [constructor | reflexivity]|].
  rewrite split_cons. cbn [filter].
  destruct (isspace ch) eqn:S; cbn [negb]; [split; assumption|].
  assert (T1 : token [ch]).
  { split; [discriminate|]. cbn [forallb]. rewrite S. reflexivity. }
  destruct rest as [|ch' rest'].
  - split; [constructor; [exact T1 | constructor] | reflexivity].
  - destruct (isspace ch') eqn:S'.
    + split; [constructor; assumption|]. cbn [List.concat app]. rewrite IHc. reflexivity.
    + destruct (split (ch' :: rest')) as [|tok toks] eqn:E.
      * split; [constructor; [exact T1 | constructor]|].
        cbn [List.concat app]. cbn [List.concat] in IHc. rewrite <- IHc. reflexivity.
      * inversion IHt as [|? ? [N F] Ts]; subst. split.
        -- constructor; [|exact Ts]. split; [discriminate|].
           cbn [forallb]. rewrite S, F. reflexivity.
        -- cbn [List.concat app]. cbn [List.concat] in IHc. rewrite <- IHc. reflexivity.
Qed.

(** X17. Start-up needs exactly three credentials: reading the file
    succeeds exactly when its text has three whitespace-separated items.
    They are then the device id, address and key in file order, each
    non-empty and free of whitespace, and together they are the text with
    its whitespace removed. With any other number of items (an empty or
    blank file included) the statement raises, and so does a file that
    cannot be read. *)
Theorem credentials_need_three_items (s : text) :
  ((exists creds, load_credentials (Returns s) = Returns creds)
   <-> List.length (split s) = 3)
  /\ (forall device_id device_ip local_key,
        load_credentials (Returns s) = Returns (device_id, device_ip, local_key) ->
        split s = [device_id; device_ip; local_key]
        /\ token device_id /\ token device_ip /\ token local_key
        /\ device_id ++ device_ip ++ local_key
           = filter (fun ch => negb (isspace ch)) s)
  /\ (List.length (split s) <> 3 -> exists e, load_credentials (Returns s) = Raises e)
  /\ (blank s ->
      load_credentials (Returns s)
      = Raises "not enough values to unpack (expected 3, got 0)")
  /\ (forall e, load_credentials (Raises e) = Raises e).
Proof.
  destruct (split_tokens s) as [T C].
  unfold load_credentials.
  split; [|split; [|split; [|split]]].
  - destruct (split s) as [|a [|b [|c [|d l]]]]; cbn [List.length]; split;
      try (intros [creds H]; discriminate H); try discriminate; try reflexivity.
    intros _. eexists. reflexivity.
  - intros a b c H.
    destruct (split s) as [|a' [|b' [|c' [|d l]]]]; try discriminate H.
    inversion H; subst. split; [reflexivity|].
    inversion T as [|? ? Ta T1]; subst. inversion T1 as [|? ? Tb T2]; subst.
    inversion T2 as [|? ? Tc _]; subst.
    repeat split; try apply Ta; try apply Tb; try apply Tc.
    rewrite <- C. cbn [List.concat]. rewrite app_nil_r. reflexivity.
  - destruct (split s) as [|a [|b [|c [|d l]]]]; cbn [List.length]; intros N;
      try (eexists; reflexivity). contradiction.
  - intros B. rewrite (split_all_blank _ B). reflexivity.
  - reflexivity.
Qed.

(** X18. Layout of the credentials file does not matter: three items
    separated by any non-empty whitespace (spaces, tabs, newlines), with
    any whitespace before and after, are read back exactly. *)
Theorem credentials_round_trip (device_id device_ip local_key : text)
    (lead sep1 sep2 tail : text) :
  token device_id -> token device_ip -> token local_key ->
  blank lead -> blank sep1 -> sep1 <> [] -> blank sep2 -> sep2 <> [] ->
  blank tail ->
  load_credentials
    (Returns (lead ++ device_id ++ sep1 ++ device_ip ++ sep2 ++ local_key ++ tail))
  = Returns (device_id, device_ip, local_key).
Proof.
  intros Ta Tb Tc Bl B1 N1 B2 N2 Bt. unfold load_credentials.
  rewrite (split_blank _ _ Bl).
  rewrite (split_token_then_blank _ _ _ Ta B1 N1).
  rewrite (split_token_then_blank _ _ _ Tb B2 N2).
  destruct tail as [|sp tail].
  - rewrite app_nil_r, (split_token _ Tc). reflexivity.
  - unfold blank in Bt. cbn [forallb] in Bt. apply andb_prop in Bt.
    destruct Bt as [S Bt].
    rewrite (split_token_then_space _ _ _ Tc S), (split_all_blank _ Bt).
    reflexivity.
Qed.

Lemma credentials_round_trip_witness :
  load_credentials
    (Returns (codes "  bf3a9c01d2" ++ [10; 9]%N ++ codes "192.168.1.50 "
              ++ codes "k3y/Lo:cal" ++ [13; 10]%N))
  = Returns (codes "bf3a9c01d2", codes "192.168.1.50", codes "k3y/Lo:cal").
Proof.
  apply (credentials_round_trip
           (codes "bf3a9c01d2") (codes "192.168.1.50") (codes "k3y/Lo:cal")
           (codes "  ") [10; 9]%N (codes " ") [13; 10]%N);
    try (split; [discriminate | reflexivity]); try reflexivity; discriminate.
Defined.
